(** * kubewatch: the controller of pkg/controller/controller.go

    A shallow embedding of [Controller] and of the six per-kind watch
    functions, with the effects they have on the process (informers
    built, goroutines started, log lines, the HTTP listener) recorded in
    an explicit world, followed by the properties of that wiring. *)

From Stdlib Require Import ZArith Lia.
From stdpp Require Import gmap strings list.

Set Implicit Arguments.

(** ** Data *)

(** Go's [error] values, as the message they carry. *)
Definition error := string.

(** [time.Duration] is an int64 count of nanoseconds; arithmetic wraps. *)
Module time.
Definition Duration := Z.
Definition int64 (z : Z) : Z := ((z + 2 ^ 63) mod 2 ^ 64 - 2 ^ 63)%Z.
Definition mul (a b : Duration) : Duration := int64 (a * b).
Definition Nanosecond : Duration := 1%Z.
Definition Microsecond : Duration := mul 1000%Z Nanosecond.
Definition Millisecond : Duration := mul 1000%Z Microsecond.
Definition Second : Duration := mul 1000%Z Millisecond.
Definition Minute : Duration := mul 60%Z Second.
End time.

(** The [conf.Resource] flags read by [Controller]. *)
Module config.
Record Resources := {
  Pod : bool;
  Services : bool;
  ReplicationController : bool;
  Deployment : bool;
  Job : bool;
  PersistentVolume : bool
}.
Record Config := { Resource : Resources }.
End config.

(** The example objects handed to [cache.NewInformer]: [&api.Pod{}],
    [&api.Service{}], [&api.ReplicationController{}],
    [&v1beta1.Deployment{}], [&batchv1.Job{}], [&api.PersistentVolume{}]. *)
Inductive ObjectType :=
  | api_Pod
  | api_Service
  | api_ReplicationController
  | v1beta1_Deployment
  | batchv1_Job
  | api_PersistentVolume.

#[global] Instance ObjectType_eq_dec : EqDecision ObjectType.
Proof. solve_decision. Defined.

(** The typed clients of the clientset the watch functions ask for:
    [clientset.Core()], [clientset.ExtensionsV1beta1()],
    [clientset.BatchV1()]. *)
Inductive APIGroup :=
  | Core
  | ExtensionsV1beta1
  | BatchV1.

#[global] Instance APIGroup_eq_dec : EqDecision APIGroup.
Proof. solve_decision. Defined.

(** What [clientcmd] and [kubernetes] hand back; the controller only
    passes these along. *)
Record RawConfig := { raw_kubeconfig : string }.
Record RestConfig := { rest_host : string }.
Record Clientset := { cs_config : RestConfig }.
Record RESTClient := { rc_clientset : Clientset; rc_group : APIGroup }.

Definition RESTClient_of (clientset : Clientset) (g : APIGroup) : RESTClient :=
  {| rc_clientset := clientset; rc_group := g |}.

(** [api.NamespaceAll] is the empty namespace name. *)
Module api.
Definition NamespaceAll : string := "".
End api.

(** [fields.Selector]: a conjunction of field requirements;
    [fields.Everything()] is the empty conjunction. *)
Module fields.
Definition Selector := list (string * string).
Definition Everything : Selector := [].
Definition Matches (sel : Selector) (fs : string -> string) : bool :=
  forallb (fun r => bool_decide (fs r.1 = r.2)) sel.
Definition Empty (sel : Selector) : bool :=
  match sel with [] => true | _ => false end.
End fields.

(** An object of the cluster, as far as the controller sees one. *)
Record Object := {
  obj_type : ObjectType;
  obj_namespace : string;
  obj_name : string;
  obj_resourceVersion : Z
}.

#[global] Instance Object_eq_dec : EqDecision Object.
Proof. solve_decision. Defined.

(** [handlers.Handler], the interface of the notification backends. Its
    declaration is in pkg/handlers; a backend is taken as a parameter,
    each method being a transformer of the backend's state [S]. *)
Record Handler (S : Type) := {
  ObjectCreated : Object -> S -> S;
  ObjectDeleted : Object -> S -> S;
  ObjectUpdated : Object -> Object -> S -> S
}.

Module cache.
(** [cache.ListWatch] as built by [cache.NewListWatchFromClient]. *)
Record ListWatch := {
  lw_client : RESTClient;
  lw_resource : string;
  lw_namespace : string;
  lw_fieldSelector : fields.Selector
}.

Definition NewListWatchFromClient (c : RESTClient) (resource namespace : string)
    (fieldSelector : fields.Selector) : ListWatch :=
  {| lw_client := c; lw_resource := resource; lw_namespace := namespace;
     lw_fieldSelector := fieldSelector |}.

(** [cache.ResourceEventHandlerFuncs]: a field left out of the struct
    literal is a nil func, here [None]. *)
Record ResourceEventHandlerFuncs (S : Type) := {
  AddFunc : option (Object -> S -> S);
  UpdateFunc : option (Object -> Object -> S -> S);
  DeleteFunc : option (Object -> S -> S)
}.

(** The adapter methods of [ResourceEventHandlerFuncs]: each calls its
    func when it is not nil and does nothing otherwise. *)
Definition OnAdd {S} (r : ResourceEventHandlerFuncs S) (obj : Object) (s : S) : S :=
  match AddFunc r with Some f => f obj s | None => s end.
Definition OnUpdate {S} (r : ResourceEventHandlerFuncs S) (oldObj newObj : Object) (s : S) : S :=
  match UpdateFunc r with Some f => f oldObj newObj s | None => s end.
Definition OnDelete {S} (r : ResourceEventHandlerFuncs S) (obj : Object) (s : S) : S :=
  match DeleteFunc r with Some f => f obj s | None => s end.

(** The arguments of [cache.NewInformer]. *)
Record Informer (S : Type) := {
  inf_lw : ListWatch;
  inf_objType : ObjectType;
  inf_resyncPeriod : time.Duration;
  inf_h : ResourceEventHandlerFuncs S
}.

(** [cache.Store] is an interface: [None] is the nil store, [Some n]
    the n-th store created by [NewInformer]. *)
Definition Store := option nat.

(** The [cache.Controller] returned next to the store. *)
Record Controller (S : Type) := {
  ctl_config : Informer S;
  ctl_store : nat
}.
End cache.

(** Stop channels. [wait.NeverStop] is the channel of package wait that
    nobody closes; [Chan n] stands for any channel made by the program. *)
Module wait.
Inductive StopCh :=
  | NeverStop
  | Chan (n : nat).
End wait.

#[global] Instance StopCh_eq_dec : EqDecision wait.StopCh.
Proof. solve_decision. Defined.

(** ** Effects *)

Inductive Level := FatalLevel | ErrorLevel | InfoLevel.

(** What the process does that is visible from outside, in order. *)
Inductive Event (S : Type) :=
  | EvGo (c : cache.Controller S) (stopCh : wait.StopCh)
      (* go c.Run(stopCh) *)
  | EvClose (ch : wait.StopCh)
      (* close(ch) *)
  | EvLog (lvl : Level) (msg : error)
      (* a logrus entry *)
  | EvListen (addr : string)
      (* http.ListenAndServe(addr, nil) was entered *).

Arguments EvGo {S} c stopCh.
Arguments EvClose {S} ch.
Arguments EvLog {S} lvl msg.
Arguments EvListen {S} addr.

Record World (S : Type) := {
  next_store : nat;
  trace : list (Event S)
}.

(** How a call can fail to return to its caller. *)
Inductive Halt :=
  | Exit (code : Z)       (* os.Exit(code) *)
  | Panic (e : error)     (* panic(e), not recovered in this file *)
  | Serve (addr : string) (* inside http.ListenAndServe for good *).

Inductive Result (A : Type) :=
  | Ret (a : A)
  | Halted (h : Halt).

Arguments Ret {A} a.
Arguments Halted {A} h.

Definition M (S A : Type) := World S -> Result A * World S.

Definition ret {S A} (a : A) : M S A := fun w => (Ret a, w).

Definition bind {S A B} (m : M S A) (k : A -> M S B) : M S B :=
  fun w =>
    match m w with
    | (Ret a, w') => k a w'
    | (Halted h, w') => (Halted h, w')
    end.

Notation "x <-- m ;; k" := (bind m (fun x => k))
  (at level 100, m at next level, right associativity).
Notation "m ;;; k" := (bind m (fun _ => k))
  (at level 100, right associativity).

Definition emit {S} (e : Event S) : M S unit :=
  fun w => (Ret tt, {| next_store := next_store w; trace := trace w ++ [e] |}).

Definition halt {S A} (h : Halt) : M S A := fun w => (Halted h, w).

(** [cache.NewInformer]: a fresh store and the controller that fills it. *)
Definition NewInformer {S} (lw : cache.ListWatch) (objType : ObjectType)
    (resyncPeriod : time.Duration) (h : cache.ResourceEventHandlerFuncs S)
    : M S (cache.Store * cache.Controller S) :=
  fun w =>
    let n := next_store w in
    (Ret (Some n,
          {| cache.ctl_config :=
               {| cache.inf_lw := lw; cache.inf_objType := objType;
                  cache.inf_resyncPeriod := resyncPeriod; cache.inf_h := h |};
             cache.ctl_store := n |}),
     {| next_store := Datatypes.S n; trace := trace w |}).

(** The statement [go c.Run(stopCh)]: the goroutine is started, the
    caller goes on at once. *)
Definition go_Run {S} (c : cache.Controller S) (stopCh : wait.StopCh) : M S unit :=
  emit (EvGo c stopCh).

(** [logrus.Fatal(err)]: the entry is logged, then [os.Exit(1)]. *)
Definition logrus_Fatal {S A} (err : error) : M S A :=
  emit (EvLog FatalLevel err) ;;; halt (Exit 1).

(** What the surroundings answer to the calls that leave the file. *)
Record Env := {
  env_Load : RawConfig + error;
      (* clientcmd.NewDefaultClientConfigLoadingRules().Load() *)
  env_ClientConfig : RawConfig -> RestConfig + error;
      (* clientcmd.NewDefaultClientConfig(raw, overrides).ClientConfig() *)
  env_NewForConfig : RestConfig -> Clientset + error;
      (* kubernetes.NewForConfig, behind NewForConfigOrDie *)
  env_ListenAndServe : string -> option error
      (* None: serves for ever; Some e: returns the (non-nil) error e *)
}.

(** [kubernetes.NewForConfigOrDie]: panics where [NewForConfig] fails. *)
Definition NewForConfigOrDie {S} (env : Env) (c : RestConfig) : M S Clientset :=
  match env_NewForConfig env c with
  | inl cs => ret cs
  | inr e => halt (Panic e)
  end.

(** [http.ListenAndServe(addr, nil)]: returns only with an error. *)
Definition ListenAndServe {S} (env : Env) (addr : string) : M S error :=
  emit (EvListen addr) ;;;
  match env_ListenAndServe env addr with
  | None => halt (Serve addr)
  | Some e => ret e
  end.

(** ** The watch functions *)

Section Watch.
Context {S : Type}.

Definition watchPods (clientset : Clientset) (eventHandler : Handler S)
    : M S cache.Store :=
  let watchlist :=
    cache.NewListWatchFromClient (RESTClient_of clientset Core) "pods"
      api.NamespaceAll fields.Everything in
  let resyncPeriod := time.mul 30%Z time.Minute in
  p <-- NewInformer watchlist api_Pod resyncPeriod
          {| cache.AddFunc := Some (ObjectCreated eventHandler);
             cache.UpdateFunc := None;
             cache.DeleteFunc := Some (ObjectDeleted eventHandler) |} ;;
  let '(eStore, eController) := p in
  go_Run eController wait.NeverStop ;;;
  ret eStore.

Definition watchServices (clientset : Clientset) (eventHandler : Handler S)
    : M S cache.Store :=
  let watchlist :=
    cache.NewListWatchFromClient (RESTClient_of clientset Core) "services"
      api.NamespaceAll fields.Everything in
  let resyncPeriod := time.mul 30%Z time.Minute in
  p <-- NewInformer watchlist api_Service resyncPeriod
          {| cache.AddFunc := Some (ObjectCreated eventHandler);
             cache.UpdateFunc := Some (ObjectUpdated eventHandler);
             cache.DeleteFunc := Some (ObjectDeleted eventHandler) |} ;;
  let '(eStore, eController) := p in
  go_Run eController wait.NeverStop ;;;
  ret eStore.

Definition watchReplicationControllers (clientset : Clientset)
    (eventHandler : Handler S) : M S cache.Store :=
  let watchlist :=
    cache.NewListWatchFromClient (RESTClient_of clientset Core)
      "replicationcontrollers" api.NamespaceAll fields.Everything in
  let resyncPeriod := time.mul 30%Z time.Minute in
  p <-- NewInformer watchlist api_ReplicationController resyncPeriod
          {| cache.AddFunc := Some (ObjectCreated eventHandler);
             cache.UpdateFunc := None;
             cache.DeleteFunc := Some (ObjectDeleted eventHandler) |} ;;
  let '(eStore, eController) := p in
  go_Run eController wait.NeverStop ;;;
  ret eStore.

Definition watchDeployments (clientset : Clientset) (eventHandler : Handler S)
    : M S cache.Store :=
  let watchlist :=
    cache.NewListWatchFromClient (RESTClient_of clientset ExtensionsV1beta1)
      "deployments" api.NamespaceAll fields.Everything in
  let resyncPeriod := time.mul 30%Z time.Minute in
  p <-- NewInformer watchlist v1beta1_Deployment resyncPeriod
          {| cache.AddFunc := Some (ObjectCreated eventHandler);
             cache.UpdateFunc := None;
             cache.DeleteFunc := Some (ObjectDeleted eventHandler) |} ;;
  let '(eStore, eController) := p in
  go_Run eController wait.NeverStop ;;;
  ret eStore.

Definition watchJobs (clientset : Clientset) (eventHandler : Handler S)
    : M S cache.Store :=
  let watchlist :=
    cache.NewListWatchFromClient (RESTClient_of clientset BatchV1) "jobs"
      api.NamespaceAll fields.Everything in
  let resyncPeriod := time.mul 30%Z time.Minute in
  p <-- NewInformer watchlist batchv1_Job resyncPeriod
          {| cache.AddFunc := Some (ObjectCreated eventHandler);
             cache.UpdateFunc := None;
             cache.DeleteFunc := Some (ObjectDeleted eventHandler) |} ;;
  let '(eStore, eController) := p in
  go_Run eController wait.NeverStop ;;;
  ret eStore.

Definition watchPersistenVolumes (clientset : Clientset) (store : cache.Store)
    (eventHandler : Handler S) : M S cache.Store :=
  let watchlist :=
    cache.NewListWatchFromClient (RESTClient_of clientset Core)
      "persistentvolumes" api.NamespaceAll fields.Everything in
  let resyncPeriod := time.mul 30%Z time.Minute in
  p <-- NewInformer watchlist api_PersistentVolume resyncPeriod
          {| cache.AddFunc := Some (ObjectCreated eventHandler);
             cache.UpdateFunc := None;
             cache.DeleteFunc := Some (ObjectDeleted eventHandler) |} ;;
  let '(eStore, eController) := p in
  go_Run eController wait.NeverStop ;;;
  ret eStore.

(** An [if] statement without [else] whose body's value is dropped. *)
Definition when {A} (b : bool) (body : M S A) : M S unit :=
  if b then (body ;;; ret tt) else ret tt.

Definition Controller (env : Env) (conf : config.Config)
    (eventHandler : Handler S) : M S unit :=
  match env_Load env with
  | inr err => logrus_Fatal err
  | inl rawConfig =>
    match env_ClientConfig env rawConfig with
    | inr err => logrus_Fatal err
    | inl restConfig =>
      kubeClient <-- NewForConfigOrDie env restConfig ;;
      when (config.Pod (config.Resource conf))
        (watchPods kubeClient eventHandler) ;;;
      when (config.Services (config.Resource conf))
        (watchServices kubeClient eventHandler) ;;;
      when (config.ReplicationController (config.Resource conf))
        (watchReplicationControllers kubeClient eventHandler) ;;;
      when (config.Deployment (config.Resource conf))
        (watchDeployments kubeClient eventHandler) ;;;
      when (config.Job (config.Resource conf))
        (watchJobs kubeClient eventHandler) ;;;
      when (config.PersistentVolume (config.Resource conf))
        (let servicesStore : cache.Store := None in
         watchPersistenVolumes kubeClient servicesStore eventHandler) ;;;
      err <-- ListenAndServe env ":8081" ;;
      logrus_Fatal err
    end
  end.

End Watch.

(** ** Reading a run *)

(** The resource kinds of the spec: one per flag of [conf.Resource], that
    is one per watch function. *)
Inductive Kind :=
  | pod
  | service
  | replication_controller
  | deployment
  | job
  | persistent_volume.

#[global] Instance Kind_eq_dec : EqDecision Kind.
Proof. solve_decision. Defined.

(** The kinds in the order in which [Controller] goes through them. *)
Definition all_kinds : list Kind :=
  [pod; service; replication_controller; deployment; job; persistent_volume].

(** The flag that [Controller] tests for a kind. *)
Definition enabled (conf : config.Config) (k : Kind) : bool :=
  match k with
  | pod => config.Pod (config.Resource conf)
  | service => config.Services (config.Resource conf)
  | replication_controller => config.ReplicationController (config.Resource conf)
  | deployment => config.Deployment (config.Resource conf)
  | job => config.Job (config.Resource conf)
  | persistent_volume => config.PersistentVolume (config.Resource conf)
  end.

(** The call that [Controller] makes for a kind. *)
Definition watch {S} (k : Kind) (clientset : Clientset) (eventHandler : Handler S)
    : M S cache.Store :=
  match k with
  | pod => watchPods clientset eventHandler
  | service => watchServices clientset eventHandler
  | replication_controller => watchReplicationControllers clientset eventHandler
  | deployment => watchDeployments clientset eventHandler
  | job => watchJobs clientset eventHandler
  | persistent_volume => watchPersistenVolumes clientset None eventHandler
  end.

(** The three setup calls at the head of [Controller], as one answer:
    the clientset when all three succeed, the error of the first call
    that fails otherwise. *)
Definition setup (env : Env) : Clientset + error :=
  match env_Load env with
  | inr err => inr err
  | inl rawConfig =>
    match env_ClientConfig env rawConfig with
    | inr err => inr err
    | inl restConfig => env_NewForConfig env restConfig
    end
  end.

(** The events a computation adds to the trace of the world it starts in. *)
Definition started {S A} (m : M S A) (w : World S) : list (Event S) :=
  drop (length (trace w)) (trace (m w).2).

(** The goroutines among some events, with their stop channels. *)
Fixpoint loops {S} (evs : list (Event S)) : list (cache.Controller S * wait.StopCh) :=
  match evs with
  | [] => []
  | EvGo c stopCh :: evs' => (c, stopCh) :: loops evs'
  | _ :: evs' => loops evs'
  end.

Definition informers {S} (evs : list (Event S)) : list (cache.Informer S) :=
  map (fun p => cache.ctl_config p.1) (loops evs).

(** The channels closed among some events. *)
Fixpoint closes {S} (evs : list (Event S)) : list wait.StopCh :=
  match evs with
  | [] => []
  | EvClose ch :: evs' => ch :: closes evs'
  | _ :: evs' => closes evs'
  end.

(** [Run] returns when its stop channel is closed, not before: whether
    a loop has been told to stop by the end of some events. *)
Definition stopped {S} (evs : list (Event S))
    (p : cache.Controller S * wait.StopCh) : bool :=
  bool_decide (p.2 ∈ closes evs).

(** The addresses listened on among some events. *)
Fixpoint listens {S} (evs : list (Event S)) : list string :=
  match evs with
  | [] => []
  | EvListen addr :: evs' => addr :: listens evs'
  | _ :: evs' => listens evs'
  end.

(** Where an informer points: typed client, resource name, decoder. *)
Definition wiring {S} (i : cache.Informer S) : APIGroup * string * ObjectType :=
  (rc_group (cache.lw_client (cache.inf_lw i)),
   cache.lw_resource (cache.inf_lw i),
   cache.inf_objType i).

(** The number of informers among [infs] that decode objects of type [t]. *)
Definition count_of {S} (t : ObjectType) (infs : list (cache.Informer S)) : nat :=
  length (List.filter (fun i => bool_decide (cache.inf_objType i = t)) infs).

(** The exit status of the process when a halt reaches the top of the
    main goroutine: the code given to [os.Exit], 2 for a panic that was
    not recovered, none while the listener serves. *)
Definition exit_status (h : Halt) : option Z :=
  match h with
  | Exit code => Some code
  | Panic _ => Some 2%Z
  | Serve _ => None
  end.

(** The entries logged at fatal level among some events. *)
Fixpoint fatal_entries {S} (evs : list (Event S)) : list error :=
  match evs with
  | [] => []
  | EvLog FatalLevel msg :: evs' => msg :: fatal_entries evs'
  | _ :: evs' => fatal_entries evs'
  end.

(** The endpoint and the decoder that the spec gives each kind. *)
Definition row (k : Kind) : APIGroup * string * ObjectType :=
  match k with
  | pod => (Core, "pods", api_Pod)
  | service => (Core, "services", api_Service)
  | replication_controller => (Core, "replicationcontrollers", api_ReplicationController)
  | deployment => (ExtensionsV1beta1, "deployments", v1beta1_Deployment)
  | job => (BatchV1, "jobs", batchv1_Job)
  | persistent_volume => (Core, "persistentvolumes", api_PersistentVolume)
  end.

(** ** A backend that records its calls, and sample inputs *)

Inductive Call :=
  | CallCreated (obj : Object)
  | CallDeleted (obj : Object)
  | CallUpdated (oldObj newObj : Object).

Definition recorder : Handler (list Call) :=
  {| ObjectCreated := fun obj s => s ++ [CallCreated obj];
     ObjectDeleted := fun obj s => s ++ [CallDeleted obj];
     ObjectUpdated := fun oldObj newObj s => s ++ [CallUpdated oldObj newObj] |}.

Definition w0 {S} : World S := {| next_store := 0; trace := [] |}.

Definition cs0 : Clientset := {| cs_config := {| rest_host := "https://10.0.0.1" |} |}.

(** Every setup call succeeds and the listener serves. *)
Definition env_ok : Env :=
  {| env_Load := inl {| raw_kubeconfig := "~/.kube/config" |};
     env_ClientConfig := fun _ => inl {| rest_host := "https://10.0.0.1" |};
     env_NewForConfig := fun c => inl {| cs_config := c |};
     env_ListenAndServe := fun _ => None |}.

(** The kubeconfig cannot be loaded. *)
Definition env_no_kubeconfig : Env :=
  {| env_Load := inr "open ~/.kube/config: permission denied";
     env_ClientConfig := env_ClientConfig env_ok;
     env_NewForConfig := env_NewForConfig env_ok;
     env_ListenAndServe := env_ListenAndServe env_ok |}.

(** The client cannot be constructed. *)
Definition env_no_client : Env :=
  {| env_Load := env_Load env_ok;
     env_ClientConfig := env_ClientConfig env_ok;
     env_NewForConfig := fun _ => inr "host must be a URL or a host:port pair";
     env_ListenAndServe := env_ListenAndServe env_ok |}.

(** Port 8081 is taken. *)
Definition env_port_taken : Env :=
  {| env_Load := env_Load env_ok;
     env_ClientConfig := env_ClientConfig env_ok;
     env_NewForConfig := env_NewForConfig env_ok;
     env_ListenAndServe := fun _ => Some "listen tcp :8081: bind: address already in use" |}.

Definition conf_all : config.Config :=
  {| config.Resource :=
       {| config.Pod := true; config.Services := true;
          config.ReplicationController := true; config.Deployment := true;
          config.Job := true; config.PersistentVolume := true |} |}.

Definition conf_pods_jobs : config.Config :=
  {| config.Resource :=
       {| config.Pod := true; config.Services := false;
          config.ReplicationController := false; config.Deployment := false;
          config.Job := true; config.PersistentVolume := false |} |}.

Definition obj1 : Object :=
  {| obj_type := api_Pod; obj_namespace := "default"; obj_name := "web-0";
     obj_resourceVersion := 41 |}.

Definition obj2 : Object :=
  {| obj_type := api_Pod; obj_namespace := "default"; obj_name := "web-0";
     obj_resourceVersion := 42 |}.

(** ** The reconciliation step *)

(** The tags of the records of a watch stream. *)
Inductive Tag := Added | Modified | Deleted.

Record WatchRecord := { rec_tag : Tag; rec_obj : Object }.

(** The identity of an object: namespace and name. *)
Definition identity (o : Object) : string * string :=
  (obj_namespace o, obj_name o).

(** Modelled from the spec: the Reconciliation Loop's handling of one
    record of the watch stream (section 4.3, state Streaming, with its
    tie-break). The loop itself is the informer of client-go that
    [cache.NewInformer] returns, which is not under src/; what src/ gives
    is the [ResourceEventHandlerFuncs] the loop emits its events to.
    - Added/Modified: absent from the mirror, emit Added; present and not
      identical, emit Updated(old,new); present and identical (same
      resource version), suppress; a Modified record that is not strictly
      newer than the mirror's entry is suppressed. The mirror takes the
      new object in every case that is not suppressed.
    - Deleted: remove from the mirror if present and emit Deleted; if
      absent, suppress. *)
Definition process_record {S} (h : cache.ResourceEventHandlerFuncs S)
    (r : WatchRecord) (st : gmap (string * string) Object * S)
    : gmap (string * string) Object * S :=
  let '(mirror, s) := st in
  let obj := rec_obj r in
  match rec_tag r, mirror !! identity obj with
  | Deleted, Some _ => (delete (identity obj) mirror, cache.OnDelete h obj s)
  | Deleted, None => (mirror, s)
  | _, None => (<[identity obj := obj]> mirror, cache.OnAdd h obj s)
  | Added, Some old =>
      if bool_decide (obj_resourceVersion old = obj_resourceVersion obj)
      then (mirror, s)
      else (<[identity obj := obj]> mirror, cache.OnUpdate h old obj s)
  | Modified, Some old =>
      if bool_decide (obj_resourceVersion old < obj_resourceVersion obj)%Z
      then (<[identity obj := obj]> mirror, cache.OnUpdate h old obj s)
      else (mirror, s)
  end.

(** A mirror that holds [obj1] only. *)
Definition mirror1 : gmap (string * string) Object := {[ identity obj1 := obj1 ]}.

Definition obj3 : Object :=
  {| obj_type := api_Pod; obj_namespace := "kube-system"; obj_name := "dns-0";
     obj_resourceVersion := 7 |}.

(** ** Closed forms of a run *)

(** The events of one call of [watch k] in a world whose next store is
    the [n]-th. *)
Definition loop_of {S} (k : Kind) (clientset : Clientset) (eventHandler : Handler S)
    (n : nat) : list (Event S) :=
  started (watch k clientset eventHandler) {| next_store := n; trace := [] |}.

(** The [if] statements of [Controller] for the kinds [ks], in order,
    followed by [rest]; [Controller] is this at [all_kinds]. *)
Fixpoint through {S B} (conf : config.Config) (clientset : Clientset)
    (eventHandler : Handler S) (ks : list Kind) (rest : M S B) : M S B :=
  match ks with
  | [] => rest
  | k :: ks' =>
      when (enabled conf k) (watch k clientset eventHandler) ;;;
      through conf clientset eventHandler ks' rest
  end.

(** The events of those [if] statements. *)
Fixpoint loops_from {S} (conf : config.Config) (clientset : Clientset)
    (eventHandler : Handler S) (ks : list Kind) (n : nat) : list (Event S) :=
  match ks with
  | [] => []
  | k :: ks' =>
      if enabled conf k
      then loop_of k clientset eventHandler n
             ++ loops_from conf clientset eventHandler ks' (Datatypes.S n)
      else loops_from conf clientset eventHandler ks' n
  end.

(** What the listener adds to the trace, and how the process ends there. *)
Definition listen_events {S} (env : Env) : list (Event S) :=
  EvListen ":8081" ::
  match env_ListenAndServe env ":8081" with
  | None => []
  | Some e => [EvLog FatalLevel e]
  end.

Definition listen_halt (env : Env) : Halt :=
  match env_ListenAndServe env ":8081" with
  | None => Serve ":8081"
  | Some _ => Exit 1
  end.

(** The entries logged among some events, at any level. *)
Fixpoint logs {S} (evs : list (Event S)) : list (Level * error) :=
  match evs with
  | [] => []
  | EvLog lvl msg :: evs' => (lvl, msg) :: logs evs'
  | _ :: evs' => logs evs'
  end.

(** No resource is to be watched. *)
Definition conf_none : config.Config :=
  {| config.Resource :=
       {| config.Pod := false; config.Services := false;
          config.ReplicationController := false; config.Deployment := false;
          config.Job := false; config.PersistentVolume := false |} |}.

(** ** Lemmas on runs *)

Section Runs.
Context {S : Type}.
Implicit Types (w : World S) (eventHandler : Handler S) (k : Kind).

Lemma started_app {A} (m : M S A) w evs :
  trace (m w).2 = trace w ++ evs -> started m w = evs.
Proof. intros E. unfold started. rewrite E. apply drop_app_length. Qed.

Lemma watch_run k clientset eventHandler w :
  watch k clientset eventHandler w =
    (Ret (Some (next_store w)),
     {| next_store := Datatypes.S (next_store w);
        trace := trace w ++ loop_of k clientset eventHandler (next_store w) |}).
Proof. destruct k; reflexivity. Qed.

Lemma started_watch k clientset eventHandler w :
  started (watch k clientset eventHandler) w
  = loop_of k clientset eventHandler (next_store w).
Proof. apply started_app. rewrite watch_run. reflexivity. Qed.

Lemma through_run {B} conf clientset eventHandler ks (rest : M S B) w :
  through conf clientset eventHandler ks rest w =
    rest {| next_store := next_store w + length (List.filter (enabled conf) ks);
            trace := trace w ++ loops_from conf clientset eventHandler ks (next_store w) |}.
Proof.
  revert w. induction ks as [|k ks IH]; intros w; simpl.
  - destruct w as [n tr]; simpl. rewrite Nat.add_0_r, app_nil_r. reflexivity.
  - unfold bind, when. destruct (enabled conf k); simpl.
    + unfold bind. rewrite watch_run. simpl. rewrite IH. simpl.
      rewrite <- app_assoc. f_equal. f_equal. lia.
    + rewrite IH. reflexivity.
Qed.

Lemma Controller_through env conf eventHandler w :
  Controller env conf eventHandler w =
    match env_Load env with
    | inr err => logrus_Fatal err w
    | inl rawConfig =>
      match env_ClientConfig env rawConfig with
      | inr err => logrus_Fatal err w
      | inl restConfig =>
        (kubeClient <-- NewForConfigOrDie env restConfig ;;
         through conf kubeClient eventHandler all_kinds
           (err <-- ListenAndServe env ":8081" ;; logrus_Fatal err)) w
      end
    end.
Proof.
  unfold Controller.
  destruct (env_Load env) as [rawConfig|?]; [|reflexivity].
  destruct (env_ClientConfig env rawConfig); reflexivity.
Qed.

(** The run of [Controller] when the three setup calls succeed. *)
Lemma Controller_run_ok env conf eventHandler w clientset :
  setup env = inl clientset ->
  Controller env conf eventHandler w =
    (Halted (listen_halt env),
     {| next_store := next_store w + length (List.filter (enabled conf) all_kinds);
        trace := trace w
                   ++ loops_from conf clientset eventHandler all_kinds (next_store w)
                   ++ listen_events env |}).
Proof.
  intros Hs. rewrite Controller_through. unfold setup in Hs.
  destruct (env_Load env) as [rawConfig|?]; [|discriminate].
  destruct (env_ClientConfig env rawConfig) as [restConfig|?]; [|discriminate].
  unfold bind at 1, NewForConfigOrDie.
  destruct (env_NewForConfig env restConfig) as [cs|?]; [|discriminate].
  injection Hs as <-. unfold ret at 1. rewrite through_run.
  unfold listen_halt, listen_events, bind, ListenAndServe, logrus_Fatal, bind, emit, halt, ret.
  simpl. destruct (env_ListenAndServe env ":8081"); simpl;
    rewrite <- ?app_assoc; reflexivity.
Qed.

(** The run of [Controller] when one of the three setup calls fails. *)
Lemma Controller_run_failed env conf eventHandler w e :
  setup env = inr e ->
  Controller env conf eventHandler w
    = (Halted (Exit 1),
       {| next_store := next_store w; trace := trace w ++ [EvLog FatalLevel e] |})
  \/ Controller env conf eventHandler w = (Halted (Panic e), w).
Proof.
  intros Hs. rewrite Controller_through. unfold setup in Hs.
  destruct (env_Load env) as [rawConfig|e'].
  2:{ injection Hs as <-. left. reflexivity. }
  destruct (env_ClientConfig env rawConfig) as [restConfig|e'].
  2:{ injection Hs as <-. left. reflexivity. }
  unfold bind at 1, NewForConfigOrDie. rewrite Hs. right. reflexivity.
Qed.

Lemma loops_app (evs1 evs2 : list (Event S)) :
  loops (evs1 ++ evs2) = loops evs1 ++ loops evs2.
Proof.
  induction evs1 as [|[] evs1 IH]; simpl; rewrite ?IH; reflexivity.
Qed.

Lemma closes_app (evs1 evs2 : list (Event S)) :
  closes (evs1 ++ evs2) = closes evs1 ++ closes evs2.
Proof.
  induction evs1 as [|[] evs1 IH]; simpl; rewrite ?IH; reflexivity.
Qed.

Lemma informers_app (evs1 evs2 : list (Event S)) :
  informers (evs1 ++ evs2) = informers evs1 ++ informers evs2.
Proof. unfold informers. rewrite loops_app. apply map_app. Qed.

Lemma loops_listen env : loops (listen_events (S := S) env) = [].
Proof. unfold listen_events. destruct (env_ListenAndServe env ":8081"); reflexivity. Qed.

Lemma closes_listen env : closes (listen_events (S := S) env) = [].
Proof. unfold listen_events. destruct (env_ListenAndServe env ":8081"); reflexivity. Qed.

Lemma informers_loop_of k clientset eventHandler n :
  informers (loop_of k clientset eventHandler n)
  = informers (loop_of k clientset eventHandler 0).
Proof. destruct k; reflexivity. Qed.

Lemma informers_loops_from conf clientset eventHandler ks n :
  informers (loops_from conf clientset eventHandler ks n)
  = flat_map (fun k => informers (loop_of k clientset eventHandler 0))
      (List.filter (enabled conf) ks).
Proof.
  revert n. induction ks as [|k ks IH]; intros n; simpl; [reflexivity|].
  destruct (enabled conf k); simpl; [|apply IH].
  rewrite informers_app, IH, informers_loop_of. reflexivity.
Qed.

Lemma closes_loops_from conf clientset eventHandler ks n :
  closes (loops_from conf clientset eventHandler ks n) = [].
Proof.
  revert n. induction ks as [|k ks IH]; intros n; simpl; [reflexivity|].
  destruct (enabled conf k); [|apply IH].
  rewrite closes_app, IH. destruct k; reflexivity.
Qed.

Lemma stops_loops_from conf clientset eventHandler ks n :
  Forall (fun p => p.2 = wait.NeverStop)
    (loops (loops_from conf clientset eventHandler ks n)).
Proof.
  revert n. induction ks as [|k ks IH]; intros n; simpl; [constructor|].
  destruct (enabled conf k); [|apply IH].
  rewrite loops_app. apply Forall_app. split; [|apply IH].
  destruct k; repeat constructor.
Qed.

Lemma stores_loops_from conf clientset eventHandler ks n :
  map (fun p => cache.ctl_store p.1)
    (loops (loops_from conf clientset eventHandler ks n))
  = seq n (length (List.filter (enabled conf) ks)).
Proof.
  revert n. induction ks as [|k ks IH]; intros n; simpl; [reflexivity|].
  destruct (enabled conf k); simpl; [|apply IH].
  rewrite loops_app, map_app, IH. destruct k; reflexivity.
Qed.

End Runs.

Section ControllerRuns.
Context {S : Type}.
Implicit Types (w : World S) (eventHandler : Handler S) (k : Kind).

Lemma Controller_started_ok env conf eventHandler w clientset :
  setup env = inl clientset ->
  started (Controller env conf eventHandler) w
  = loops_from conf clientset eventHandler all_kinds (next_store w)
      ++ listen_events env.
Proof.
  intros Hs. apply started_app.
  rewrite (Controller_run_ok env conf eventHandler w Hs). reflexivity.
Qed.

Lemma Controller_started_failed env conf eventHandler w e :
  setup env = inr e ->
  (Controller env conf eventHandler w).1 = Halted (Exit 1)
    /\ started (Controller env conf eventHandler) w = [EvLog FatalLevel e]
    /\ next_store (Controller env conf eventHandler w).2 = next_store w
  \/ (Controller env conf eventHandler w).1 = Halted (Panic e)
    /\ started (Controller env conf eventHandler) w = []
    /\ next_store (Controller env conf eventHandler w).2 = next_store w.
Proof.
  intros Hs.
  destruct (Controller_run_failed env conf eventHandler w Hs) as [E|E]; [left|right].
  - repeat split; [now rewrite E | | now rewrite E].
    apply started_app. now rewrite E.
  - repeat split; [now rewrite E | | now rewrite E].
    apply started_app. rewrite E. simpl. now rewrite app_nil_r.
Qed.

Lemma Controller_informers env conf eventHandler w :
  informers (started (Controller env conf eventHandler) w)
  = match setup env with
    | inl clientset =>
        flat_map (fun k => informers (loop_of k clientset eventHandler 0))
          (List.filter (enabled conf) all_kinds)
    | inr _ => []
    end.
Proof.
  destruct (setup env) as [cs|e] eqn:Hs.
  - rewrite (Controller_started_ok env conf eventHandler w Hs).
    rewrite informers_app, informers_loops_from.
    unfold informers at 2. rewrite loops_listen. apply app_nil_r.
  - destruct (Controller_started_failed env conf eventHandler w Hs)
      as [(_ & -> & _)|(_ & -> & _)]; reflexivity.
Qed.

(** A property of the informer of every watch function holds of every
    informer that [Controller] starts. *)
Lemma Controller_informers_Forall (P : cache.Informer S -> Prop)
    env conf eventHandler w :
  (forall k clientset, Forall P (informers (loop_of k clientset eventHandler 0))) ->
  Forall P (informers (started (Controller env conf eventHandler) w)).
Proof.
  intros HP. rewrite Controller_informers.
  destruct (setup env) as [cs|]; [|constructor].
  induction (List.filter (enabled conf) all_kinds) as [|k ks IH]; simpl.
  - constructor.
  - apply Forall_app. split; [apply HP | apply IH].
Qed.

End ControllerRuns.

(** ** Sample runs *)

Example resync_period_ns : time.mul 30%Z time.Minute = 1800000000000%Z.
Proof. reflexivity. Qed.

Example run_pods_and_jobs :
  map wiring (informers (started (Controller env_ok conf_pods_jobs recorder) w0))
  = [(Core, "pods", api_Pod); (BatchV1, "jobs", batchv1_Job)]
  /\ (Controller env_ok conf_pods_jobs recorder w0).1 = Halted (Serve ":8081")
  /\ next_store (Controller env_ok conf_pods_jobs recorder w0).2 = 2.
Proof. repeat split; reflexivity. Qed.

Example run_port_taken :
  (Controller env_port_taken conf_pods_jobs recorder w0).1 = Halted (Exit 1)
  /\ length (loops (started (Controller env_port_taken conf_pods_jobs recorder) w0)) = 2
  /\ listens (started (Controller env_port_taken conf_pods_jobs recorder) w0) = [":8081"]
  /\ fatal_entries (started (Controller env_port_taken conf_pods_jobs recorder) w0)
     = ["listen tcp :8081: bind: address already in use"].
Proof. repeat split; reflexivity. Qed.

Example service_update_dispatched :
  map (fun i => cache.OnUpdate (cache.inf_h i) obj1 obj2 [])
    (informers (started (watchServices cs0 recorder) w0))
  = [[CallUpdated obj1 obj2]].
Proof. reflexivity. Qed.

(** ** The handler entry points (C1) *)

(** C1, counterexample. The claim says that every watch loop registers
    all three entry points, so that a detected update reaches
    object-updated. The informer built by [watchPods] has no update
    func: an update of a pod from [obj1] to [obj2] leaves the record of
    calls of the backend empty, where the entry point [ObjectUpdated]
    would have recorded one call. *)
Lemma C1_pods_ignore_updates :
  map (fun i => cache.OnUpdate (cache.inf_h i) obj1 obj2 [])
    (informers (started (watchPods cs0 recorder) w0)) = [[]]
  /\ ObjectUpdated recorder obj1 obj2 [] = [CallUpdated obj1 obj2]
  /\ ~ (forall k, Forall (fun i => is_Some (cache.UpdateFunc (cache.inf_h i)))
                   (informers (started (watch k cs0 recorder) w0))).
Proof.
  split; [reflexivity|]. split; [reflexivity|].
  intros H. specialize (H pod). inversion H as [|i l Hi _ E]; subst.
  destruct Hi as [f Hf]. discriminate Hf.
Qed.

(** C1, amended. Each of the six watch functions starts one informer
    that registers the object-created and the object-deleted entry
    points of the backend, so that a detected create calls
    [ObjectCreated] and a detected delete calls [ObjectDeleted], for
    every kind. The object-updated entry point, which takes the old and
    the new object, is registered by the service loop only; for the
    other five kinds a detected update calls nothing. *)
Theorem C1_entry_points_registered (S : Type) (k : Kind) (clientset : Clientset)
    (eventHandler : Handler S) (w : World S) :
  exists i,
    informers (started (watch k clientset eventHandler) w) = [i]
    /\ cache.AddFunc (cache.inf_h i) = Some (ObjectCreated eventHandler)
    /\ cache.DeleteFunc (cache.inf_h i) = Some (ObjectDeleted eventHandler)
    /\ cache.UpdateFunc (cache.inf_h i)
       = (if bool_decide (k = service) then Some (ObjectUpdated eventHandler) else None)
    /\ (forall obj s,
          cache.OnAdd (cache.inf_h i) obj s = ObjectCreated eventHandler obj s)
    /\ (forall obj s,
          cache.OnDelete (cache.inf_h i) obj s = ObjectDeleted eventHandler obj s)
    /\ (forall oldObj newObj s,
          cache.OnUpdate (cache.inf_h i) oldObj newObj s
          = if bool_decide (k = service)
            then ObjectUpdated eventHandler oldObj newObj s else s).
Proof.
  rewrite started_watch, informers_loop_of.
  destruct k; eexists; repeat split; reflexivity.
Qed.

(** ** One loop per enabled kind (C2) *)

Lemma count_of_enabled {S} conf clientset (eventHandler : Handler S) k :
  count_of (row k).2
    (flat_map (fun k => informers (loop_of k clientset eventHandler 0))
       (List.filter (enabled conf) all_kinds))
  = if enabled conf k then 1 else 0.
Proof.
  destruct conf as [[p s r d j v]].
  destruct k, p, s, r, d, j, v; reflexivity.
Qed.

(** C2. Once the three setup calls have succeeded, [Controller] builds
    one informer (watch source and loop) for each kind whose flag is
    set, each on a store of its own, and starts each of them with a [go]
    statement, in the order of the flags; the informers started are
    those of the watch functions of the enabled kinds, once each. A kind
    whose flag is unset gets no informer and no goroutine. When setup
    fails nothing is built or started. *)
Theorem C2_one_loop_per_enabled_kind (S : Type) (env : Env) (conf : config.Config)
    (eventHandler : Handler S) (w : World S) :
  match setup env with
  | inl clientset =>
      informers (started (Controller env conf eventHandler) w)
      = flat_map (fun k => informers (started (watch k clientset eventHandler) w0))
          (List.filter (enabled conf) all_kinds)
      /\ map (fun p => cache.ctl_store p.1)
           (loops (started (Controller env conf eventHandler) w))
         = seq (next_store w) (length (List.filter (enabled conf) all_kinds))
      /\ next_store (Controller env conf eventHandler w).2
         = next_store w + length (List.filter (enabled conf) all_kinds)
      /\ (forall k,
            count_of (row k).2 (informers (started (Controller env conf eventHandler) w))
            = if enabled conf k then 1 else 0)
  | inr _ =>
      loops (started (Controller env conf eventHandler) w) = []
      /\ next_store (Controller env conf eventHandler w).2 = next_store w
  end.
Proof.
  pose proof (Controller_informers env conf eventHandler w) as Hi.
  destruct (setup env) as [cs|e] eqn:Hs.
  - split; [exact Hi|]. split; [|split].
    + rewrite (Controller_started_ok env conf eventHandler w Hs).
      rewrite loops_app, loops_listen, app_nil_r. apply stores_loops_from.
    + rewrite (Controller_run_ok env conf eventHandler w Hs). reflexivity.
    + intros k. rewrite Hi. apply count_of_enabled.
  - destruct (Controller_started_failed env conf eventHandler w Hs)
      as [(_ & -> & ->)|(_ & -> & ->)]; split; reflexivity.
Qed.

(** ** Returning to the caller (C3) *)

Lemma loops_from_all_go {S} conf clientset (eventHandler : Handler S) ks n :
  Forall (fun e => match e with EvGo _ _ => True | _ => False end)
    (loops_from conf clientset eventHandler ks n).
Proof.
  revert n. induction ks as [|k ks IH]; intros n; simpl; [constructor|].
  destruct (enabled conf k); [|apply IH].
  apply Forall_app. split; [|apply IH]. destruct k; repeat constructor.
Qed.

(** C3, counterexample. With every flag set, a working cluster
    configuration and a free port, [Controller] does not return to its
    caller: it stays inside [http.ListenAndServe]. *)
Lemma C3_Controller_does_not_return :
  (Controller env_ok conf_all recorder w0).1 = Halted (Serve ":8081")
  /\ (Controller env_ok conf_all recorder w0).1 <> Ret tt.
Proof. split; [reflexivity | discriminate]. Qed.

(** C3, amended. Every watch function returns to its caller, with the
    new store, right after the [go] statement that starts its loop: it
    does not wait for the loop. [Controller] itself never returns to its
    caller: after the [go] statements of the enabled kinds it enters
    [http.ListenAndServe] on [":8081"], where it stays for as long as
    the listener serves; when the listener gives up, the error is logged
    at fatal level and the process exits with status 1. *)
Theorem C3_watch_returns_Controller_serves (S : Type) (env : Env)
    (conf : config.Config) (eventHandler : Handler S) (w : World S) :
  (forall k clientset,
     (watch k clientset eventHandler w).1 = Ret (Some (next_store w))
     /\ length (loops (started (watch k clientset eventHandler) w)) = 1)
  /\ (forall a, (Controller env conf eventHandler w).1 <> Ret a)
  /\ match setup env with
     | inl clientset =>
         (Controller env conf eventHandler w).1
         = Halted (match env_ListenAndServe env ":8081" with
                   | None => Serve ":8081"
                   | Some _ => Exit 1
                   end)
         /\ exists gos,
              started (Controller env conf eventHandler) w
              = gos ++ EvListen ":8081" ::
                  match env_ListenAndServe env ":8081" with
                  | None => []
                  | Some e => [EvLog FatalLevel e]
                  end
              /\ Forall (fun e => match e with EvGo _ _ => True | _ => False end) gos
     | inr _ => True
     end.
Proof.
  split; [|split].
  - intros k cs. rewrite started_watch, watch_run. split; [reflexivity|].
    destruct k; reflexivity.
  - intros a. destruct (setup env) as [cs|e] eqn:Hs.
    + rewrite (Controller_run_ok env conf eventHandler w Hs). discriminate.
    + destruct (Controller_started_failed env conf eventHandler w Hs)
        as [(-> & _)|(-> & _)]; discriminate.
  - destruct (setup env) as [cs|e] eqn:Hs; [|exact I].
    split.
    + rewrite (Controller_run_ok env conf eventHandler w Hs). reflexivity.
    + exists (loops_from conf cs eventHandler all_kinds (next_store w)).
      split; [|apply loops_from_all_go].
      apply (Controller_started_ok env conf eventHandler w Hs).
Qed.

(** ** The resync period (C4) *)

(** C4. The informer of every kind is given the same resync period,
    [30 * time.Minute], that is 1 800 000 000 000 ns: a constant of the
    program, whatever the kind, the clientset, the backend and the
    world; and so is every informer that [Controller] starts. *)
Theorem C4_resync_every_30_minutes (S : Type) (env : Env) (conf : config.Config)
    (eventHandler : Handler S) (w : World S) :
  (forall k clientset,
     exists i,
       informers (started (watch k clientset eventHandler) w) = [i]
       /\ cache.inf_resyncPeriod i = time.mul 30%Z time.Minute)
  /\ Forall (fun i => cache.inf_resyncPeriod i = time.mul 30%Z time.Minute)
       (informers (started (Controller env conf eventHandler) w))
  /\ time.mul 30%Z time.Minute = (30 * 60 * 1000000000)%Z.
Proof.
  split; [|split].
  - intros k cs. rewrite started_watch, informers_loop_of.
    destruct k; eexists; split; reflexivity.
  - apply Controller_informers_Forall. intros k cs.
    destruct k; repeat constructor.
  - reflexivity.
Qed.

(** ** No stop signal (C5) *)

(** C5. Every loop is started with [wait.NeverStop] as its stop channel,
    by each watch function and so by [Controller], and the program
    closes no channel at all: no loop that [Controller] has started is
    ever told to stop. *)
Theorem C5_loops_run_on_NeverStop (S : Type) (env : Env) (conf : config.Config)
    (eventHandler : Handler S) (w : World S) :
  (forall k clientset,
     (exists c, loops (started (watch k clientset eventHandler) w)
                = [(c, wait.NeverStop)])
     /\ closes (started (watch k clientset eventHandler) w) = [])
  /\ Forall (fun p => p.2 = wait.NeverStop)
       (loops (started (Controller env conf eventHandler) w))
  /\ closes (started (Controller env conf eventHandler) w) = []
  /\ Forall (fun p => stopped (started (Controller env conf eventHandler) w) p = false)
       (loops (started (Controller env conf eventHandler) w)).
Proof.
  assert (closes (started (Controller env conf eventHandler) w) = []) as Hc.
  { destruct (setup env) as [cs|e] eqn:Hs.
    - rewrite (Controller_started_ok env conf eventHandler w Hs).
      rewrite closes_app, closes_listen, app_nil_r. apply closes_loops_from.
    - destruct (Controller_started_failed env conf eventHandler w Hs)
        as [(_ & -> & _)|(_ & -> & _)]; reflexivity. }
  split; [|split; [|split; [exact Hc|]]].
  3:{ apply Forall_forall. intros p _. unfold stopped. rewrite Hc.
      apply bool_decide_eq_false_2. apply not_elem_of_nil. }
  - intros k cs. rewrite started_watch.
    destruct k; (split; [eexists|]; reflexivity).
  - destruct (setup env) as [cs|e] eqn:Hs.
    + rewrite (Controller_started_ok env conf eventHandler w Hs).
      rewrite loops_app, loops_listen, app_nil_r. apply stops_loops_from.
    + destruct (Controller_started_failed env conf eventHandler w Hs)
        as [(_ & -> & _)|(_ & -> & _)]; constructor.
Qed.

(** ** Setup failures (C6) *)

(** C6, counterexample. The claim says that every setup failure, the
    client that cannot be constructed included, ends the process with a
    logged fatal error. When [NewForConfig] fails, [NewForConfigOrDie]
    panics, and the program has logged nothing: no entry at all is in
    the trace, at fatal level or any other. *)
Lemma C6_client_failure_logs_nothing :
  setup env_no_client = inr "host must be a URL or a host:port pair"
  /\ (Controller env_no_client conf_all recorder w0).1
     = Halted (Panic "host must be a URL or a host:port pair")
  /\ logs (started (Controller env_no_client conf_all recorder) w0) = []
  /\ fatal_entries (started (Controller env_no_client conf_all recorder) w0) = [].
Proof. repeat split; reflexivity. Qed.

(** C6, amended. When one of the three setup calls fails with the error
    [e], the process ends there, before anything else has happened: no
    informer was built, no loop was started, the listener was not
    entered, and [Controller] does not return. When the configuration
    cannot be loaded or the client configuration cannot be made, the
    error [e] is logged at fatal level, as the only event of the run,
    and the process exits with status 1. When the client cannot be
    constructed, nothing is logged: [NewForConfigOrDie] panics with [e],
    which ends the process with status 2 when no caller recovers it. In
    every case the exit status is not zero. *)
Theorem C6_setup_failure_ends_the_process (S : Type) (env : Env)
    (conf : config.Config) (eventHandler : Handler S) (w : World S) (e : error) :
  setup env = inr e ->
  loops (started (Controller env conf eventHandler) w) = []
  /\ listens (started (Controller env conf eventHandler) w) = []
  /\ next_store (Controller env conf eventHandler w).2 = next_store w
  /\ (exists hl code,
        (Controller env conf eventHandler w).1 = Halted hl
        /\ exit_status hl = Some code /\ code <> 0%Z)
  /\ match env_Load env with
     | inr _ =>
         (Controller env conf eventHandler w).1 = Halted (Exit 1)
         /\ started (Controller env conf eventHandler) w = [EvLog FatalLevel e]
     | inl rawConfig =>
         match env_ClientConfig env rawConfig with
         | inr _ =>
             (Controller env conf eventHandler w).1 = Halted (Exit 1)
             /\ started (Controller env conf eventHandler) w = [EvLog FatalLevel e]
         | inl _ =>
             (Controller env conf eventHandler w).1 = Halted (Panic e)
             /\ started (Controller env conf eventHandler) w = []
         end
     end.
Proof.
  intros Hs.
  assert (match env_Load env with
          | inr _ =>
              Controller env conf eventHandler w
              = (Halted (Exit 1),
                 {| next_store := next_store w;
                    trace := trace w ++ [EvLog FatalLevel e] |})
          | inl rawConfig =>
              match env_ClientConfig env rawConfig with
              | inr _ =>
                  Controller env conf eventHandler w
                  = (Halted (Exit 1),
                     {| next_store := next_store w;
                        trace := trace w ++ [EvLog FatalLevel e] |})
              | inl _ =>
                  Controller env conf eventHandler w = (Halted (Panic e), w)
              end
          end) as Hrun.
  { rewrite Controller_through. unfold setup in Hs.
    destruct (env_Load env) as [rawConfig|e'].
    2:{ injection Hs as <-. reflexivity. }
    destruct (env_ClientConfig env rawConfig) as [restConfig|e'].
    2:{ injection Hs as <-. reflexivity. }
    unfold bind at 1, NewForConfigOrDie. rewrite Hs. reflexivity. }
  assert (forall hl evs,
            Controller env conf eventHandler w
            = (Halted hl, {| next_store := next_store w; trace := trace w ++ evs |}) ->
            (Controller env conf eventHandler w).1 = Halted hl
            /\ started (Controller env conf eventHandler) w = evs
            /\ next_store (Controller env conf eventHandler w).2 = next_store w)
    as Hread.
  { intros hl evs E. split; [now rewrite E|]. split; [|now rewrite E].
    apply started_app. now rewrite E. }
  assert (Controller env conf eventHandler w = (Halted (Panic e), w) ->
          Controller env conf eventHandler w
          = (Halted (Panic e),
             {| next_store := next_store w; trace := trace w ++ [] |})) as Hnil.
  { intros E. rewrite E. destruct w as [n tr]. simpl. now rewrite app_nil_r. }
  destruct (env_Load env) as [rawConfig|e1].
  2:{ destruct (Hread _ _ Hrun) as (Hr & Hev & Hn). rewrite Hr, Hev, Hn.
      repeat split; try reflexivity. exists (Exit 1), 1%Z.
      split; [reflexivity|]. split; [reflexivity | lia]. }
  destruct (env_ClientConfig env rawConfig) as [restConfig|e1].
  2:{ destruct (Hread _ _ Hrun) as (Hr & Hev & Hn). rewrite Hr, Hev, Hn.
      repeat split; try reflexivity. exists (Exit 1), 1%Z.
      split; [reflexivity|]. split; [reflexivity | lia]. }
  destruct (Hread _ _ (Hnil Hrun)) as (Hr & Hev & Hn). rewrite Hr, Hev, Hn.
  repeat split; try reflexivity. exists (Panic e), 2%Z.
  split; [reflexivity|]. split; [reflexivity | lia].
Qed.

Lemma C6_witness_no_kubeconfig :
  setup env_no_kubeconfig = inr "open ~/.kube/config: permission denied"
  /\ loops (started (Controller env_no_kubeconfig conf_all recorder) w0) = []
  /\ listens (started (Controller env_no_kubeconfig conf_all recorder) w0) = []
  /\ next_store (Controller env_no_kubeconfig conf_all recorder w0).2
     = next_store (w0 (S := list Call))
  /\ (exists hl code,
        (Controller env_no_kubeconfig conf_all recorder w0).1 = Halted hl
        /\ exit_status hl = Some code /\ code <> 0%Z)
  /\ match env_Load env_no_kubeconfig with
     | inr _ =>
         (Controller env_no_kubeconfig conf_all recorder w0).1 = Halted (Exit 1)
         /\ started (Controller env_no_kubeconfig conf_all recorder) w0
            = [EvLog FatalLevel "open ~/.kube/config: permission denied"]
     | inl rawConfig =>
         match env_ClientConfig env_no_kubeconfig rawConfig with
         | inr _ =>
             (Controller env_no_kubeconfig conf_all recorder w0).1 = Halted (Exit 1)
             /\ started (Controller env_no_kubeconfig conf_all recorder) w0
                = [EvLog FatalLevel "open ~/.kube/config: permission denied"]
         | inl _ =>
             (Controller env_no_kubeconfig conf_all recorder w0).1
             = Halted (Panic "open ~/.kube/config: permission denied")
             /\ started (Controller env_no_kubeconfig conf_all recorder) w0 = []
         end
     end.
Proof.
  split; [reflexivity|].
  apply (@C6_setup_failure_ends_the_process (list Call) env_no_kubeconfig
           conf_all recorder w0 "open ~/.kube/config: permission denied").
  reflexivity.
Defined.

(** The two ways of dying, on the sample environments. *)
Example setup_failure_exits :
  Controller env_no_kubeconfig conf_all recorder w0
  = (Halted (Exit 1),
     {| next_store := 0;
        trace := [EvLog FatalLevel "open ~/.kube/config: permission denied"] |}).
Proof. reflexivity. Qed.

Example client_failure_panics :
  Controller env_no_client conf_all recorder w0
  = (Halted (Panic "host must be a URL or a host:port pair"), w0).
Proof. reflexivity. Qed.

(** ** Scope of the list and watch calls (C7) *)

(** C7. The list-watch of every kind, from which both the list call and
    the watch call are made, is for [api.NamespaceAll], the empty
    namespace name, and carries the selector [fields.Everything()],
    which has no requirement and matches every object; and so does every
    informer that [Controller] starts. *)
Theorem C7_all_namespaces_everything (S : Type) (env : Env) (conf : config.Config)
    (eventHandler : Handler S) (w : World S) :
  (forall k clientset,
     exists i,
       informers (started (watch k clientset eventHandler) w) = [i]
       /\ cache.lw_namespace (cache.inf_lw i) = api.NamespaceAll
       /\ cache.lw_fieldSelector (cache.inf_lw i) = fields.Everything
       /\ fields.Empty (cache.lw_fieldSelector (cache.inf_lw i)) = true
       /\ forall fs, fields.Matches (cache.lw_fieldSelector (cache.inf_lw i)) fs = true)
  /\ Forall (fun i => cache.lw_namespace (cache.inf_lw i) = api.NamespaceAll
                      /\ cache.lw_fieldSelector (cache.inf_lw i) = fields.Everything)
       (informers (started (Controller env conf eventHandler) w))
  /\ api.NamespaceAll = "".
Proof.
  split; [|split].
  - intros k cs. rewrite started_watch, informers_loop_of.
    destruct k; eexists; repeat split; reflexivity.
  - apply Controller_informers_Forall. intros k cs.
    destruct k; repeat constructor.
  - reflexivity.
Qed.

(** ** Kinds, endpoints and decoders (C8) *)

(** C8. The kinds are the six of [all_kinds], each once. The informer of
    each kind goes to the endpoint and uses the decoder of its row: pods,
    services, replication controllers and persistent volumes on the core
    client, deployments on the extensions/v1beta1 client, jobs on the
    batch/v1 client, each with the type of its own objects. No two kinds
    share an endpoint or a decoder, and the informers that [Controller]
    starts are those of the rows of the enabled kinds, in order. *)
Theorem C8_kinds_endpoints_decoders (S : Type) (env : Env) (conf : config.Config)
    (eventHandler : Handler S) (w : World S) :
  (forall k, k ∈ all_kinds)
  /\ NoDup all_kinds
  /\ map row all_kinds
     = [ (Core, "pods", api_Pod);
         (Core, "services", api_Service);
         (Core, "replicationcontrollers", api_ReplicationController);
         (ExtensionsV1beta1, "deployments", v1beta1_Deployment);
         (BatchV1, "jobs", batchv1_Job);
         (Core, "persistentvolumes", api_PersistentVolume) ]
  /\ (forall k clientset,
        map wiring (informers (started (watch k clientset eventHandler) w)) = [row k]
        /\ Forall (fun i => rc_clientset (cache.lw_client (cache.inf_lw i)) = clientset)
             (informers (started (watch k clientset eventHandler) w)))
  /\ NoDup (map (fun k => (row k).1) all_kinds)
  /\ NoDup (map (fun k => (row k).2) all_kinds)
  /\ map wiring (informers (started (Controller env conf eventHandler) w))
     = match setup env with
       | inl _ => map row (List.filter (enabled conf) all_kinds)
       | inr _ => []
       end.
Proof.
  split; [|split; [|split; [|split; [|split; [|split]]]]].
  - intros k. destruct k; set_solver.
  - apply (bool_decide_unpack _). vm_compute. reflexivity.
  - reflexivity.
  - intros k cs. rewrite started_watch, informers_loop_of.
    destruct k; split; repeat constructor.
  - apply (bool_decide_unpack _). vm_compute. reflexivity.
  - apply (bool_decide_unpack _). vm_compute. reflexivity.
  - rewrite Controller_informers. destruct (setup env) as [cs|]; [|reflexivity].
    induction (List.filter (enabled conf) all_kinds) as [|k ks IH]; [reflexivity|].
    simpl. rewrite map_app, IH. f_equal. destruct k; reflexivity.
Qed.

(** ** Deleted records for absent identities (C9) *)

(** C9. For the reconciliation step of the spec: a Deleted record whose
    identity is not in the mirror leaves the mirror as it is and calls
    nothing, whatever functions the informer registered: the state of
    the backend is the one before the record. *)
Theorem C9_deleted_absent_suppressed (S : Type)
    (h : cache.ResourceEventHandlerFuncs S) (r : WatchRecord)
    (mirror : gmap (string * string) Object) (s : S) :
  rec_tag r = Deleted ->
  mirror !! identity (rec_obj r) = None ->
  process_record h r (mirror, s) = (mirror, s).
Proof.
  intros Ht Hm. unfold process_record. rewrite Ht, Hm. reflexivity.
Qed.

Lemma C9_witness_unknown_pod :
  rec_tag {| rec_tag := Deleted; rec_obj := obj3 |} = Deleted
  /\ mirror1 !! identity (rec_obj {| rec_tag := Deleted; rec_obj := obj3 |}) = None
  /\ Forall (fun i =>
       process_record (cache.inf_h i) {| rec_tag := Deleted; rec_obj := obj3 |}
         (mirror1, []) = (mirror1, []))
       (informers (started (watchPods cs0 recorder) w0)).
Proof.
  split; [reflexivity|]. split; [vm_compute; reflexivity|].
  constructor; [|constructor].
  apply (C9_deleted_absent_suppressed _ {| rec_tag := Deleted; rec_obj := obj3 |} mirror1);
    [reflexivity | vm_compute; reflexivity].
Defined.

(** The same record for an identity that the mirror holds is not
    suppressed: the entry goes and the backend is called. *)
Example deleted_present_dispatched :
  map (fun i =>
         (process_record (cache.inf_h i) {| rec_tag := Deleted; rec_obj := obj1 |}
            (mirror1, [])).2)
    (informers (started (watchPods cs0 recorder) w0))
  = [[CallDeleted obj1]].
Proof. vm_compute. reflexivity. Qed.

(** ** The store argument of watchPersistenVolumes (C10) *)

(** C10. [watchPersistenVolumes] does the same whatever store it is
    given, the nil store included: the same result, the store that its
    own call of [cache.NewInformer] created, and the same world after
    it, hence the same informer and the same goroutine. *)
Theorem C10_store_argument_unused (S : Type) (clientset : Clientset)
    (store1 store2 : cache.Store) (eventHandler : Handler S) (w : World S) :
  watchPersistenVolumes clientset store1 eventHandler w
  = watchPersistenVolumes clientset store2 eventHandler w
  /\ watchPersistenVolumes clientset store1 eventHandler w
     = watchPersistenVolumes clientset None eventHandler w
  /\ (watchPersistenVolumes clientset store1 eventHandler w).1
     = Ret (Some (next_store w))
  /\ started (watchPersistenVolumes clientset store1 eventHandler) w
     = started (watchPersistenVolumes clientset store2 eventHandler) w.
Proof. repeat split; reflexivity. Qed.

(** ** Further properties of the controller *)

Section Further.
Context {S : Type}.
Implicit Types (w : World S) (eventHandler : Handler S) (k : Kind).

Lemma logs_app (evs1 evs2 : list (Event S)) :
  logs (evs1 ++ evs2) = logs evs1 ++ logs evs2.
Proof.
  induction evs1 as [|[] evs1 IH]; simpl; rewrite ?IH; reflexivity.
Qed.

Lemma logs_loops_from conf clientset eventHandler ks n :
  logs (loops_from conf clientset eventHandler ks n) = [].
Proof.
  revert n. induction ks as [|k ks IH]; intros n; simpl; [reflexivity|].
  destruct (enabled conf k); [|apply IH].
  rewrite logs_app, IH. destruct k; reflexivity.
Qed.

Lemma loops_from_disabled conf clientset eventHandler ks n :
  (forall k, enabled conf k = false) ->
  loops_from conf clientset eventHandler ks n = [].
Proof.
  intros Hd. revert n. induction ks as [|k ks IH]; intros n; simpl; [reflexivity|].
  rewrite Hd. apply IH.
Qed.

Lemma filter_disabled conf (ks : list Kind) :
  (forall k, enabled conf k = false) -> List.filter (enabled conf) ks = [].
Proof.
  intros Hd. induction ks as [|k ks IH]; simpl; [reflexivity|].
  rewrite Hd. exact IH.
Qed.

Lemma flat_map_enabled_sublist {B} (f : Kind -> list B) conf1 conf2 (ks : list Kind) :
  (forall k, enabled conf1 k = true -> enabled conf2 k = true) ->
  flat_map f (List.filter (enabled conf1) ks)
    `sublist_of` flat_map f (List.filter (enabled conf2) ks).
Proof.
  intros Hle. induction ks as [|k ks IH]; simpl; [constructor|].
  destruct (enabled conf1 k) eqn:E1.
  - rewrite (Hle k E1). simpl. apply sublist_app; [reflexivity | exact IH].
  - destruct (enabled conf2 k); simpl; [apply sublist_inserts_l|]; exact IH.
Qed.

End Further.

(** X1. The configuration loaded first is the one the client
    configuration is made from, and the clientset built from that is the
    one every watch function is given: all the informers that
    [Controller] starts talk to the cluster through that one clientset,
    and there is one informer per flag that is set. *)
Theorem X1_loops_share_the_clientset (S : Type) (env : Env) (conf : config.Config)
    (eventHandler : Handler S) (w : World S)
    (rawConfig : RawConfig) (restConfig : RestConfig) (kubeClient : Clientset) :
  env_Load env = inl rawConfig ->
  env_ClientConfig env rawConfig = inl restConfig ->
  env_NewForConfig env restConfig = inl kubeClient ->
  Forall (fun i => rc_clientset (cache.lw_client (cache.inf_lw i)) = kubeClient)
    (informers (started (Controller env conf eventHandler) w))
  /\ length (informers (started (Controller env conf eventHandler) w))
     = length (List.filter (enabled conf) all_kinds).
Proof.
  intros Hl Hc Hn.
  assert (setup env = inl kubeClient) as Hs.
  { unfold setup. rewrite Hl, Hc. exact Hn. }
  rewrite Controller_informers, Hs.
  induction (List.filter (enabled conf) all_kinds) as [|k ks [IH1 IH2]]; simpl.
  - split; [constructor | reflexivity].
  - split.
    + apply Forall_app. split; [|exact IH1]. destruct k; repeat constructor.
    + rewrite length_app, IH2. destruct k; reflexivity.
Qed.

Lemma X1_witness_all_kinds :
  env_Load env_ok = inl {| raw_kubeconfig := "~/.kube/config" |}
  /\ env_ClientConfig env_ok {| raw_kubeconfig := "~/.kube/config" |}
     = inl {| rest_host := "https://10.0.0.1" |}
  /\ env_NewForConfig env_ok {| rest_host := "https://10.0.0.1" |} = inl cs0
  /\ Forall (fun i => rc_clientset (cache.lw_client (cache.inf_lw i)) = cs0)
       (informers (started (Controller env_ok conf_all recorder) w0))
  /\ length (informers (started (Controller env_ok conf_all recorder) w0))
     = length (List.filter (enabled conf_all) all_kinds).
Proof.
  split; [reflexivity|]. split; [reflexivity|]. split; [reflexivity|].
  apply (@X1_loops_share_the_clientset (list Call) env_ok conf_all recorder w0
           {| raw_kubeconfig := "~/.kube/config" |}
           {| rest_host := "https://10.0.0.1" |} cs0); reflexivity.
Defined.

(** X2. Every informer that [Controller] starts reports to the one
    backend that [Controller] was given: its add func is that backend's
    [ObjectCreated], its delete func that backend's [ObjectDeleted], and
    its update func is that backend's [ObjectUpdated] when it decodes
    services and nil otherwise. *)
Theorem X2_loops_share_the_handler (S : Type) (env : Env) (conf : config.Config)
    (eventHandler : Handler S) (w : World S) :
  Forall (fun i =>
            cache.AddFunc (cache.inf_h i) = Some (ObjectCreated eventHandler)
            /\ cache.DeleteFunc (cache.inf_h i) = Some (ObjectDeleted eventHandler)
            /\ cache.UpdateFunc (cache.inf_h i)
               = if bool_decide (cache.inf_objType i = api_Service)
                 then Some (ObjectUpdated eventHandler) else None)
    (informers (started (Controller env conf eventHandler) w)).
Proof.
  apply Controller_informers_Forall. intros k cs.
  destruct k; repeat constructor.
Qed.

(** X3. When the services flag is unset, no loop that [Controller]
    starts has an update func: whatever the other flags, an update of
    any object changes nothing in the backend, whose [ObjectUpdated] is
    never called. *)
Theorem X3_no_update_without_services (S : Type) (env : Env) (conf : config.Config)
    (eventHandler : Handler S) (w : World S) :
  config.Services (config.Resource conf) = false ->
  Forall (fun i =>
            cache.UpdateFunc (cache.inf_h i) = None
            /\ forall oldObj newObj s, cache.OnUpdate (cache.inf_h i) oldObj newObj s = s)
    (informers (started (Controller env conf eventHandler) w)).
Proof.
  intros Hsv. rewrite Controller_informers.
  destruct (setup env) as [cs|]; [|constructor].
  destruct conf as [[p s r d j v]]. simpl in Hsv. subst s.
  destruct p, r, d, j, v; repeat constructor.
Qed.

Lemma X3_witness_pods_and_jobs :
  config.Services (config.Resource conf_pods_jobs) = false
  /\ Forall (fun i =>
               cache.UpdateFunc (cache.inf_h i) = None
               /\ forall oldObj newObj s,
                    cache.OnUpdate (cache.inf_h i) oldObj newObj s = s)
       (informers (started (Controller env_ok conf_pods_jobs recorder) w0)).
Proof.
  split; [reflexivity|].
  apply (@X3_no_update_without_services (list Call) env_ok conf_pods_jobs
           recorder w0).
  reflexivity.
Defined.

(** X4. With no flag set and a working setup, [Controller] builds no
    informer and starts no loop, and still enters the listener on
    [":8081"] and does not return: the process stays up with nothing to
    watch, or exits with status 1 after logging the listener's error. *)
Theorem X4_no_flag_only_the_listener (S : Type) (env : Env) (conf : config.Config)
    (eventHandler : Handler S) (w : World S) (kubeClient : Clientset) :
  setup env = inl kubeClient ->
  (forall k, enabled conf k = false) ->
  started (Controller env conf eventHandler) w
  = EvListen ":8081" ::
      match env_ListenAndServe env ":8081" with
      | None => []
      | Some e => [EvLog FatalLevel e]
      end
  /\ next_store (Controller env conf eventHandler w).2 = next_store w
  /\ (Controller env conf eventHandler w).1
     = Halted (match env_ListenAndServe env ":8081" with
               | None => Serve ":8081"
               | Some _ => Exit 1
               end).
Proof.
  intros Hs Hd. split; [|split].
  - rewrite (Controller_started_ok env conf eventHandler w Hs).
    rewrite (loops_from_disabled conf kubeClient eventHandler all_kinds _ Hd).
    reflexivity.
  - rewrite (Controller_run_ok env conf eventHandler w Hs).
    rewrite (filter_disabled conf all_kinds Hd). simpl. lia.
  - rewrite (Controller_run_ok env conf eventHandler w Hs). reflexivity.
Qed.

Lemma X4_witness_conf_none :
  setup env_ok = inl cs0
  /\ (forall k, enabled conf_none k = false)
  /\ started (Controller env_ok conf_none recorder) w0
     = EvListen ":8081" ::
         match env_ListenAndServe env_ok ":8081" with
         | None => []
         | Some e => [EvLog FatalLevel e]
         end
  /\ next_store (Controller env_ok conf_none recorder w0).2
     = next_store (w0 (S := list Call))
  /\ (Controller env_ok conf_none recorder w0).1
     = Halted (match env_ListenAndServe env_ok ":8081" with
               | None => Serve ":8081"
               | Some _ => Exit 1
               end).
Proof.
  split; [reflexivity|]. split; [intros []; reflexivity|].
  apply (@X4_no_flag_only_the_listener (list Call) env_ok conf_none recorder w0 cs0);
    [reflexivity | intros []; reflexivity].
Defined.

(** X5. [Controller] ends in one of three ways and logs accordingly. It
    exits with status 1 only, and then exactly one entry was logged, at
    fatal level, as the last thing the process did. When it panics it
    has done nothing at all, and while it serves on [":8081"] it has
    logged nothing. It never returns. *)
Theorem X5_exit_follows_one_fatal_entry (S : Type) (env : Env) (conf : config.Config)
    (eventHandler : Handler S) (w : World S) :
  match (Controller env conf eventHandler w).1 with
  | Ret _ => False
  | Halted (Exit code) =>
      code = 1%Z
      /\ exists evs e,
           started (Controller env conf eventHandler) w = evs ++ [EvLog FatalLevel e]
           /\ logs evs = []
  | Halted (Panic _) => started (Controller env conf eventHandler) w = []
  | Halted (Serve addr) =>
      addr = ":8081" /\ logs (started (Controller env conf eventHandler) w) = []
  end.
Proof.
  destruct (setup env) as [cs|e] eqn:Hs.
  - rewrite (Controller_started_ok env conf eventHandler w Hs).
    rewrite (Controller_run_ok env conf eventHandler w Hs).
    unfold listen_halt, listen_events.
    destruct (env_ListenAndServe env ":8081") as [e|]; cbn [fst].
    + split; [reflexivity|].
      exists (loops_from conf cs eventHandler all_kinds (next_store w)
                ++ [EvListen ":8081"]), e.
      split; [now rewrite <- app_assoc|].
      rewrite logs_app, logs_loops_from. reflexivity.
    + split; [reflexivity|]. rewrite logs_app, logs_loops_from. reflexivity.
  - destruct (Controller_started_failed env conf eventHandler w Hs)
      as [(-> & -> & _)|(-> & -> & _)].
    + split; [reflexivity|]. exists [], e. split; reflexivity.
    + reflexivity.
Qed.

(** X6. Setting more flags only adds loops: when every flag set in
    [conf1] is set in [conf2], the informers started under [conf1] are
    among those started under [conf2], in the same order, whatever the
    worlds the two runs start in. The informer of a kind does not depend
    on the flags of the other kinds. *)
Theorem X6_more_flags_more_loops (S : Type) (env : Env)
    (conf1 conf2 : config.Config) (eventHandler : Handler S) (w1 w2 : World S) :
  (forall k, enabled conf1 k = true -> enabled conf2 k = true) ->
  informers (started (Controller env conf1 eventHandler) w1)
    `sublist_of` informers (started (Controller env conf2 eventHandler) w2).
Proof.
  intros Hle. rewrite !Controller_informers.
  destruct (setup env) as [cs|]; [|constructor].
  apply flat_map_enabled_sublist. exact Hle.
Qed.

Lemma X6_witness_pods_jobs_in_all :
  (forall k, enabled conf_pods_jobs k = true -> enabled conf_all k = true)
  /\ informers (started (Controller env_ok conf_pods_jobs recorder) w0)
       `sublist_of` informers (started (Controller env_ok conf_all recorder) w0).
Proof.
  split; [intros k _; destruct k; reflexivity|].
  apply (@X6_more_flags_more_loops (list Call) env_ok conf_pods_jobs conf_all
           recorder w0 w0).
  intros k _; destruct k; reflexivity.
Defined.

(** X7. Two calls of watch functions, one after the other, of the same
    kind or not, build two informers on two different stores and start
    two loops: a second call finds nothing to reuse and returns the
    second store, so that calling one watch function twice makes two
    loops that report the same changes to the backend. *)
Theorem X7_each_call_builds_its_own (S : Type) (k1 k2 : Kind) (clientset : Clientset)
    (eventHandler : Handler S) (w : World S) :
  ((watch k1 clientset eventHandler ;;; watch k2 clientset eventHandler) w).1
  = Ret (Some (Datatypes.S (next_store w)))
  /\ map (fun p => cache.ctl_store p.1)
       (loops (started (watch k1 clientset eventHandler ;;;
                        watch k2 clientset eventHandler) w))
     = [next_store w; Datatypes.S (next_store w)]
  /\ informers (started (watch k1 clientset eventHandler ;;;
                         watch k2 clientset eventHandler) w)
     = informers (started (watch k1 clientset eventHandler) w)
         ++ informers (started (watch k2 clientset eventHandler) w).
Proof.
  assert ((watch k1 clientset eventHandler ;;; watch k2 clientset eventHandler) w
          = (Ret (Some (Datatypes.S (next_store w))),
             {| next_store := Datatypes.S (Datatypes.S (next_store w));
                trace := trace w
                  ++ loop_of k1 clientset eventHandler (next_store w)
                  ++ loop_of k2 clientset eventHandler (Datatypes.S (next_store w)) |}))
    as Hrun.
  { unfold bind. rewrite watch_run, watch_run. simpl.
    now rewrite <- app_assoc. }
  assert (started (watch k1 clientset eventHandler ;;;
                   watch k2 clientset eventHandler) w
          = loop_of k1 clientset eventHandler (next_store w)
              ++ loop_of k2 clientset eventHandler (Datatypes.S (next_store w)))
    as Hev.
  { apply started_app. now rewrite Hrun. }
  split; [now rewrite Hrun|]. rewrite Hev, !started_watch. split.
  - rewrite loops_app, map_app. destruct k1, k2; reflexivity.
  - rewrite informers_app.
    rewrite (informers_loop_of k2 clientset eventHandler (Datatypes.S (next_store w))).
    rewrite (informers_loop_of k2 clientset eventHandler (next_store w)).
    reflexivity.
Qed.
